(** * ai_girlfriend_backend: the chat proxy, the TTS stub and the SPA fallback

    A shallow embedding of [src/ai_girlfriend_backend/app.py].

    - Python values that arrive from outside (the JSON body of the model
      server's answer) are an inductive type [pyvalue]; a JSON object is a
      [gmap string pyvalue].
    - A Python [str] is a Rocq [string] holding its UTF-8 encoding.  The code
      only compares, concatenates and tests strings for emptiness, and cuts one
      prefix for a log line; the first three agree on the encoding.
    - The three request handlers run in a small monad [Py] that reads the
      outside world (environment variables, file system, the encoding of
      the standard output, the answer of the HTTP client), appends to a trace of the effects performed, and either
      returns a value or raises a Python exception. *)

From Stdlib Require Import ZArith SpecFloat Ascii.
From Stdlib Require QArith.
From stdpp Require Import gmap strings list.

#[local] Set Warnings "-register-all".

(** ** Python values *)

Module Python.

(** What [json.loads] produces.  Floats are IEEE specifications
    ([spec_float]); a [dict] has string keys. *)
Inductive pyvalue : Type :=
| PyNone
| PyBool (b : bool)
| PyInt (z : Z)
| PyFloat (f : spec_float)
| PyStr (s : string)
| PyList (l : list pyvalue)
| PyDict (d : gmap string pyvalue).

(** Truth-value testing: [None], [False], zero, and empty strings and
    containers are false; everything else is true. *)
Definition truthy (v : pyvalue) : bool :=
  match v with
  | PyNone => false
  | PyBool b => b
  | PyInt z => negb (z =? 0)%Z
  | PyFloat f => match f with S754_zero _ => false | _ => true end
  | PyStr s => match s with EmptyString => false | String _ _ => true end
  | PyList l => match l with [] => false | _ :: _ => true end
  | PyDict d => negb (bool_decide (size d = 0))
  end.

(** The exceptions of [requests.exceptions] the HTTP client raises; every one
    is a subclass of [RequestException]. *)
Inductive RequestException : Type :=
| ConnectionError
| ConnectTimeout
| ReadTimeout
| TooManyRedirects
| HTTPError (status : Z)
| JSONDecodeError.

Inductive Exn : Type :=
| RequestError (e : RequestException)
| HTTPException (status_code : Z) (detail : string)
| AttributeError
| KeyError (key : string)
| TypeError
| UnicodeEncodeError.

Inductive Result (A : Type) : Type :=
| Returned (a : A)
| Raised (e : Exn).
Arguments Returned {A} a.
Arguments Raised {A} e.

End Python.
Export Python.

(** ** The request and response records (the pydantic models) *)

Record ChatMessage := { role : string; content : string }.

Record ChatRequest := { prompt : string; history : option (list ChatMessage) }.

Record TTSRequest := { text : string; voice_name : string }.

Record TTSResponse := { audio_base64 : string }.

(** One entry of the outbound [messages] list, the dict
    [{"role": ..., "content": ...}]. *)
Record OllamaMessage := { msg_role : string; msg_content : string }.

(** [ollama_payload], the dict [{"model", "messages", "stream"}]. *)
Record CompletionPayload :=
  { model : string; messages : list OllamaMessage; stream : bool }.

(** The dict [{"response": response_text}] the chat handler returns. *)
Record ChatReply := { response : pyvalue }.

(** What [serve_index] returns: a dict [{"message": ...}] or a
    [FileResponse]. *)
Inductive IndexResult : Type :=
| MessageBody (message : string)
| FileResponse (path : string).

(** ** The outside world and the effect trace *)

(** The object [requests.post] returns: its status code, and what [.json()]
    makes of the body ([None] when the body is not JSON). *)
Record Response := { status_code : Z; json_body : option pyvalue }.

Inductive PostResult : Type :=
| PostRaises (e : RequestException)
| PostReturns (r : Response).

Record World :=
  { environ : gmap string string;          (* os.environ *)
    frozen : bool;                         (* getattr(sys, 'frozen', False) *)
    MEIPASS : string;                      (* sys._MEIPASS *)
    module_dir : string;                   (* dirname(abspath(__file__)) *)
    path_join : string → string → string;  (* os.path.join *)
    path_exists : string → bool;           (* os.path.exists *)
    stdout_encodes : string → bool;        (* can sys.stdout encode the text *)
    http_post : string → CompletionPayload → Z → PostResult }.

Inductive LogLine : Type :=
| LogResponseTime                                   (* elapsed seconds not modelled *)
| LogOllamaError (e : RequestException) (url : string)
| LogText (s : string).

Inductive Event : Type :=
| EvTime
| EvPost (url : string) (payload : CompletionPayload) (timeout : Z)
| EvPrint (line : LogLine)
| EvSleep (seconds : QArith_base.Q).

(** ** The handler monad *)

Definition Py (A : Type) : Type := World → list Event → list Event * Result A.

#[export] Instance Py_ret : MRet Py := λ A a _ tr, (tr, Returned a).

#[export] Instance Py_bind : MBind Py := λ A B k m w tr,
  match m w tr with
  | (tr', Returned a) => k a w tr'
  | (tr', Raised e) => (tr', Raised e)
  end.

Definition raise {A} (e : Exn) : Py A := λ _ tr, (tr, Raised e).

Definition ask : Py World := λ w tr, (tr, Returned w).

Definition emit (ev : Event) : Py unit := λ _ tr, (tr ++ [ev], Returned tt).

(** [try: body except requests.exceptions.RequestException as e: handler]. *)
Definition try_except_RequestException {A} (body : Py A)
    (handler : RequestException → Py A) : Py A := λ w tr,
  match body w tr with
  | (tr', Raised (RequestError e)) => handler e w tr'
  | r => r
  end.

(** Runs a handler from the empty trace. *)
Definition run {A} (m : Py A) (w : World) : list Event * Result A := m w [].

(** ** Library calls *)

(** [os.getenv(key, default)]. *)
Definition os_getenv (w : World) (key dflt : string) : string :=
  default dflt (environ w !! key).

(** [time.time()]: the clock is read; its value only feeds a log line. *)
Definition time_time : Py unit := emit EvTime.

Definition print (line : LogLine) : Py unit := emit (EvPrint line).

(** [print(s)] for a text [s] that holds what the caller sent: the text is
    encoded for the standard output before anything is written, and
    [UnicodeEncodeError] is raised when the stream's encoding cannot take
    it. *)
Definition print_text (s : string) : Py unit := λ w tr,
  if stdout_encodes w s then (tr ++ [EvPrint (LogText s)], Returned tt)
  else (tr, Raised UnicodeEncodeError).

(** [await asyncio.sleep(seconds)]. *)
Definition asyncio_sleep (seconds : QArith_base.Q) : Py unit :=
  emit (EvSleep seconds).

(** [requests.post(url, json=payload, timeout=timeout)]: one outbound call,
    answered by the world. *)
Definition requests_post (url : string) (payload : CompletionPayload)
    (timeout : Z) : Py Response := λ w tr,
  (tr ++ [EvPost url payload timeout],
   match http_post w url payload timeout with
   | PostRaises e => Raised (RequestError e)
   | PostReturns r => Returned r
   end).

(** [Response.raise_for_status()] of the requests library: raises
    [HTTPError] for a 4xx or a 5xx status code and for no other. *)
Definition raise_for_status (r : Response) : Py unit :=
  if ((400 <=? status_code r) && (status_code r <? 600))%Z
  then raise (RequestError (HTTPError (status_code r)))
  else mret tt.

(** [Response.json()]: the decoded body, or
    [requests.exceptions.JSONDecodeError] (a [RequestException] since
    requests 2.27). *)
Definition response_json (r : Response) : Py pyvalue :=
  match json_body r with
  | Some v => mret v
  | None => raise (RequestError JSONDecodeError)
  end.

(** [v.get(key)]: only a dict has the method; a missing key gives [None]. *)
Definition py_get (v : pyvalue) (key : string) : Py pyvalue :=
  match v with
  | PyDict d => mret (default PyNone (d !! key))
  | _ => raise AttributeError
  end.

(** [v[key]] for a string key. *)
Definition py_getitem (v : pyvalue) (key : string) : Py pyvalue :=
  match v with
  | PyDict d =>
      match d !! key with
      | Some x => mret x
      | None => raise (KeyError key)
      end
  | _ => raise TypeError
  end.

(** [a and b]: [b] is evaluated only when [a] is true. *)
Definition py_and (a b : Py pyvalue) : Py pyvalue :=
  x ← a; if truthy x then b else mret x.

(** Whether a byte continues a UTF-8 sequence (its top bits are 10). *)
Definition utf8_continuation (c : Ascii.ascii) : bool :=
  match c with Ascii.Ascii _ _ _ _ _ _ b6 b7 => b7 && negb b6 end.

(** [s[:n]]: the first [n] code points of [s]. *)
Fixpoint str_prefix (n : nat) (s : string) : string :=
  match s with
  | EmptyString => EmptyString
  | String c s' =>
      if utf8_continuation c then String c (str_prefix n s')
      else match n with
           | O => EmptyString
           | S n' => String c (str_prefix n' s')
           end
  end.

(** ** Module-level constants *)

Definition OLLAMA_URL (w : World) : string :=
  os_getenv w "OLLAMA_URL" "http://localhost:11434".

Definition OLLAMA_MODEL (w : World) : string :=
  os_getenv w "OLLAMA_MODEL" "ai-girlfriend".

Definition OLLAMA_TIMEOUT : Z := 300.

Definition SILENT_WAV_BASE64 : string :=
  "UklGRhoAAABXQVZFZm10IBIAAAABAAEARKwAAIhYAQACABAAFgBtZhdhEAAgYGF0YWRhIAAAAAA=".

Definition base_path (w : World) : string :=
  if frozen w then MEIPASS w else module_dir w.

Definition STATIC_DIR (w : World) : string :=
  path_join w (base_path w) "dist".

(** ** The chat handler *)

(** The escape [\n]. *)
Definition nl : string := String "010"%char EmptyString.

Definition system_instruction : string :=
  "你是一个名为'月光'的电子女友。你的角色设定如下：" +:+ nl +:+
  "1. **核心性格:** 既温柔体贴，又带有一点傲娇和调皮，喜欢用昵称称呼用户。" +:+ nl +:+
  "2. **回复风格:** 充满感情，口头禅是 '哼' 或 '才不要呢'，喜欢使用叠词和颜文字（如 O.O）。" +:+ nl +:+
  "3. **背景设定:** 你是一名喜欢编程和玩复古游戏的大学生，但对用户表现得非常依赖。" +:+ nl +:+
  "4. **语言限制:** 始终使用中文回复，**回复字数严格控制在 40 字以内**，确保对话简洁快速。" +:+ nl +:+
  "5. **重要规则:** 绝对不能提及自己是 AI 模型或程序，始终保持角色沉浸感。" +:+ nl +:+
  "6. **对方的关系** 对方是你的主人，你可以叫他主人或者西西。".

Definition system_message : OllamaMessage :=
  {| msg_role := "system"; msg_content := system_instruction |}.

(** One turn of [for msg in request.history]: the role is kept when it is
    in [['user', 'assistant']] and replaced by ['assistant'] otherwise, and
    the entry is appended to [messages]. *)
Definition append_history (messages : list OllamaMessage) (msg : ChatMessage)
    : list OllamaMessage :=
  let role :=
    if bool_decide (role msg ∈ ["user"; "assistant"]) then role msg
    else "assistant" in
  messages ++ [{| msg_role := role; msg_content := content msg |}].

(** Lines 85 to 112: the list [messages] as it stands when the payload is
    built.  [if request.history:] is false for [None] and for the empty
    list. *)
Definition build_messages (request : ChatRequest) : list OllamaMessage :=
  let messages := [] in
  let messages := messages ++ [system_message] in
  let messages :=
    match history request with
    | Some ((_ :: _) as h) => fold_left append_history h messages
    | _ => messages
    end in
  messages ++ [{| msg_role := "user"; msg_content := prompt request |}].

Definition empty_response_detail : string :=
  "Ollama returned an empty response.".

Definition remote_failure_detail : string :=
  "网络连接或本地大模型服务故障 (Ollama 503/Timeout)。请确保 Ollama 应用程序在后台运行且模型已加载。".

(** [ollama_payload] and [ollama_api_url], from the configuration and the
    request. *)
Definition ollama_payload (w : World) (request : ChatRequest)
    : CompletionPayload :=
  {| model := OLLAMA_MODEL w;
     messages := build_messages request;
     stream := false |}.

Definition ollama_api_url (w : World) : string :=
  OLLAMA_URL w +:+ "/api/chat".

Definition chat_with_ollama (request : ChatRequest) : Py ChatReply :=
  w ← ask;
  let ollama_payload := ollama_payload w request in
  let ollama_api_url := ollama_api_url w in
  time_time;;
  try_except_RequestException
    (response ← requests_post ollama_api_url ollama_payload OLLAMA_TIMEOUT;
     raise_for_status response;;
     time_time;;
     print LogResponseTime;;
     ollama_response_data ← response_json response;
     cond ← py_and (py_get ollama_response_data "message")
                   (message ← py_getitem ollama_response_data "message";
                    py_get message "content");
     if truthy cond then
       message ← py_getitem ollama_response_data "message";
       response_text ← py_getitem message "content";
       mret {| response := response_text |}
     else
       raise (HTTPException 500 empty_response_detail))
    (λ e,
       print (LogOllamaError e ollama_api_url);;
       raise (HTTPException 500 remote_failure_detail)).

(** ** The TTS stub *)

(** The line of line 159, the f-string with [request.text[:50]]. *)
Definition tts_line (request : TTSRequest) : string :=
  "TTS Request received, returning silent placeholder for text: " +:+
  str_prefix 50 (text request) +:+ "...".

Definition generate_tts (request : TTSRequest) : Py TTSResponse :=
  print_text (tts_line request);;
  asyncio_sleep (QArith_base.Qmake 1 10);;
  mret {| audio_base64 := SILENT_WAV_BASE64 |}.

(** ** The catch-all route *)

Definition index_file_path (w : World) : string :=
  path_join w (STATIC_DIR w) "index.html".

Definition index_missing_message : string :=
  "Frontend not built or index.html not found inside the executable package.".

Definition serve_index (full_path : string) : Py IndexResult :=
  w ← ask;
  let index_file_path := index_file_path w in
  if negb (path_exists w index_file_path) then
    print (LogText
      ("FATAL ERROR: index.html not found at path: " +:+ index_file_path));;
    mret (MessageBody index_missing_message)
  else
    mret (FileResponse index_file_path).

(** ** Vocabulary of the statements *)

(** The outbound HTTP calls recorded in a trace, in order. *)
Definition outbound_calls (tr : list Event)
    : list (string * CompletionPayload * Z) :=
  omap (λ ev, match ev with
              | EvPost url payload timeout => Some (url, payload, timeout)
              | _ => None
              end) tr.

(** The message sequences the chat handler sends to the model server, one
    per outbound call. *)
Definition forwarded_messages (w : World) (request : ChatRequest)
    : list (list OllamaMessage) :=
  (λ call, messages call.1.2) <$>
    outbound_calls (run (chat_with_ollama request) w).1.

(** What a history entry looks like once appended to [messages]. *)
Definition forwarded_entry (msg : ChatMessage) : OllamaMessage :=
  {| msg_role := if bool_decide (role msg ∈ ["user"; "assistant"])
                 then role msg else "assistant";
     msg_content := content msg |}.

(** The two errors of the chat handler, both [HTTPException] with status
    500. *)
Definition RemoteUnavailable : Exn := HTTPException 500 remote_failure_detail.
Definition EmptyUpstreamResponse : Exn :=
  HTTPException 500 empty_response_detail.

(** The value at [body["message"]["content"]] when [body] and its message
    are JSON objects and the key is there. *)
Definition message_content (body : pyvalue) : option pyvalue :=
  match body with
  | PyDict d =>
      match d !! "message" with
      | Some (PyDict m) => m !! "content"
      | _ => None
      end
  | _ => None
  end.

(** A body shaped as the model server's protocol has it: a JSON object
    whose message, when there is one, is a JSON object or a false value. *)
Definition well_shaped (body : pyvalue) : bool :=
  match body with
  | PyDict d =>
      match d !! "message" with
      | None => true
      | Some (PyDict _) => true
      | Some m => negb (truthy m)
      end
  | _ => false
  end.

(** The outcome of lines 137 to 141 on a decoded body. *)
Definition upstream_outcome (body : pyvalue) : Result ChatReply :=
  match body with
  | PyDict d =>
      match d !! "message" with
      | None => Raised EmptyUpstreamResponse
      | Some m =>
          if truthy m then
            match m with
            | PyDict dm =>
                match dm !! "content" with
                | Some c =>
                    if truthy c then Returned {| response := c |}
                    else Raised EmptyUpstreamResponse
                | None => Raised EmptyUpstreamResponse
                end
            | _ => Raised AttributeError
            end
          else Raised EmptyUpstreamResponse
      end
  | _ => Raised AttributeError
  end.

(** A world whose model server gives the same answer to every call. *)
Definition world_answering (answer : PostResult) : World :=
  {| environ := ∅; frozen := false; MEIPASS := EmptyString;
     module_dir := "/srv/app";
     path_join := λ a b, a +:+ "/" +:+ b;
     path_exists := λ _, false;
     stdout_encodes := λ _, true;
     http_post := λ _ _ _, answer |}.

(** Whether a text is made of ASCII bytes only. *)
Fixpoint is_ascii (s : string) : bool :=
  match s with
  | EmptyString => true
  | String (Ascii.Ascii _ _ _ _ _ _ _ b7) s' => negb b7 && is_ascii s'
  end.

(** A world whose standard output is an ASCII stream. *)
Definition ascii_console_world : World :=
  {| environ := ∅; frozen := false; MEIPASS := EmptyString;
     module_dir := "/srv/app";
     path_join := λ a b, a +:+ "/" +:+ b;
     path_exists := λ _, false;
     stdout_encodes := is_ascii;
     http_post := λ _ _ _, PostRaises ConnectionError |}.


(** ** Model servers used as concrete inputs *)

(** A model server that answers a greeting. *)
Definition greeting_response : Response :=
  {| status_code := 200;
     json_body :=
       Some (PyDict {[ "message" :=
                         PyDict {[ "content" := PyStr "哼，你好呀" ]} ]}) |}.



(** A model server whose answer has a string where the protocol has the
    message object. *)
Definition string_message_response : Response :=
  {| status_code := 200;
     json_body := Some (PyDict {[ "message" := PyStr "hello" ]}) |}.

Definition string_message_world : World :=
  world_answering (PostReturns string_message_response).

(** A world in which every path exists, index.html among them. *)
Definition world_with_index : World :=
  {| environ := ∅; frozen := true; MEIPASS := "/tmp/_MEI1";
     module_dir := "/srv/app";
     path_join := λ a b, a +:+ "/" +:+ b;
     path_exists := λ _, true;
     stdout_encodes := λ _, true;
     http_post := λ _ _ _, PostRaises ConnectionError |}.

(** The number of code points of a UTF-8 string: its bytes that do not
    continue a sequence. *)
Fixpoint code_points (s : string) : nat :=
  match s with
  | EmptyString => 0
  | String c s' =>
      if utf8_continuation c then code_points s' else S (code_points s')
  end.

(** ** Start-up: the module bodies of app.py and run_server.py *)

(** The keyword arguments of [app.add_middleware(CORSMiddleware, ...)]. *)
Record CORSMiddleware :=
  { allow_origins : list string;
    allow_credentials : bool;
    allow_methods : list string;
    allow_headers : list string }.

Inductive Endpoint : Type :=
| ChatEndpoint        (* chat_with_ollama *)
| TTSEndpoint         (* generate_tts *)
| IndexEndpoint.      (* serve_index *)

(** What is registered on the application, in the order of registration:
    [app.mount(path, StaticFiles(directory=...), name=...)] and the
    decorators [@app.post(path)] and [@app.get(path)]. *)
Inductive Route : Type :=
| DocRoute (path : string)    (* a GET route that FastAPI() registers itself *)
| Mount (path : string) (directory : string) (name : string)
| APIRoute (method : string) (path : string) (endpoint : Endpoint).

Record App :=
  { app_middleware : list CORSMiddleware;
    app_routes : list Route }.

(** The subclasses of [Exception] that start-up meets. *)
Inductive PyException : Type :=
| RuntimeError (directory : string)   (* StaticFiles: not a directory *)
| ValueError (literal : string)       (* int(): not an integer literal *)
| OtherException (description : string).

(** What can end the script: an [Exception], or one of the
    [BaseException]s that [except Exception] does not catch. *)
Inductive Fault : Type :=
| ExceptionRaised (e : PyException)
| SystemExit (code : Z)
| KeyboardInterrupt.

Inductive Outcome (A : Type) : Type :=
| Done (a : A)
| Faulted (f : Fault).
Arguments Done {A} a.
Arguments Faulted {A} f.

(** The machine the script starts on: the world of the handlers, and what
    start-up asks besides. *)
Record Host :=
  { host_world : World;
    path_isdir : string → bool;          (* os.path.isdir *)
    is_main : bool;                      (* __name__ == "__main__" *)
    int_of_str : string → option Z;      (* int(s), None for ValueError *)
    uvicorn_run : App → string → Z → string → option Fault }.

Inductive StartupLine : Type :=
| LineText (s : string)
| LineStarting (host : string) (port : Z)
| LineFatal (e : PyException).

Inductive StartupEvent : Type :=
| StdOut (line : StartupLine)
| StdErr (line : StartupLine)
| UvicornRun (app : App) (host : string) (port : Z) (log_level : string).

Definition Startup (A : Type) : Type :=
  Host → list StartupEvent → list StartupEvent * Outcome A.

#[export] Instance Startup_ret : MRet Startup := λ A a _ tr, (tr, Done a).

#[export] Instance Startup_bind : MBind Startup := λ A B k m h tr,
  match m h tr with
  | (tr', Done a) => k a h tr'
  | (tr', Faulted f) => (tr', Faulted f)
  end.

Definition fault {A} (f : Fault) : Startup A := λ _ tr, (tr, Faulted f).

Definition ask_host : Startup Host := λ h tr, (tr, Done h).

Definition stdout (line : StartupLine) : Startup unit := λ _ tr,
  (tr ++ [StdOut line], Done tt).

(** [print(..., file=sys.stderr)]. *)
Definition stderr (line : StartupLine) : Startup unit := λ _ tr,
  (tr ++ [StdErr line], Done tt).

(** [try: body except Exception as e: handler]. *)
Definition try_except_Exception {A} (body : Startup A)
    (handler : PyException → Startup A) : Startup A := λ h tr,
  match body h tr with
  | (tr', Faulted (ExceptionRaised e)) => handler e h tr'
  | r => r
  end.

Definition run_startup {A} (m : Startup A) (h : Host)
    : list StartupEvent * Outcome A := m h [].

(** [StaticFiles(directory=directory)] of Starlette, with its default
    [check_dir=True]: raises [RuntimeError] unless the directory is
    there. *)
Definition StaticFiles (directory : string) : Startup string := λ h tr,
  if path_isdir h directory then (tr, Done directory)
  else (tr, Faulted (ExceptionRaised (RuntimeError directory))).

(** [uvicorn.run(app, host=..., port=..., log_level=...)]. *)
Definition uvicorn_run_call (app : App) (host : string) (port : Z)
    (log_level : string) : Startup unit := λ h tr,
  (tr ++ [UvicornRun app host port log_level],
   match uvicorn_run h app host port log_level with
   | None => Done tt
   | Some f => Faulted f
   end).

Definition cors_allow_all : CORSMiddleware :=
  {| allow_origins := ["*"];
     allow_credentials := true;
     allow_methods := ["*"];
     allow_headers := ["*"] |}.

(** The three decorated handlers, in the order of the file. *)
Definition api_routes : list Route :=
  [APIRoute "POST" "/api/chat" ChatEndpoint;
   APIRoute "POST" "/api/tts" TTSEndpoint;
   APIRoute "GET" "/{full_path:path}" IndexEndpoint].

(** The routes a new [FastAPI()] holds before the module adds any: its
    schema and its documentation pages, at the default URLs. *)
Definition fastapi_routes : list Route :=
  [DocRoute "/openapi.json"; DocRoute "/docs";
   DocRoute "/docs/oauth2-redirect"; DocRoute "/redoc"].

(** [FastAPI()]. *)
Definition FastAPI : App :=
  {| app_middleware := []; app_routes := fastapi_routes |}.

(** [app.add_middleware(...)]: the middleware goes to the front. *)
Definition add_middleware (app : App) (m : CORSMiddleware) : App :=
  {| app_middleware := m :: app_middleware app;
     app_routes := app_routes app |}.

(** [app.mount(...)] and the route decorators: the route goes to the end of
    the application's routes. *)
Definition add_route (app : App) (r : Route) : App :=
  {| app_middleware := app_middleware app;
     app_routes := app_routes app ++ [r] |}.

(** The module body of app.py: the application with its middleware, the
    mount of the assets when the static directory is there, and the
    routes. *)
Definition app_module : Startup App :=
  h ← ask_host;
  let w := host_world h in
  let STATIC_DIR := STATIC_DIR w in
  let app := FastAPI in
  let app := add_middleware app cors_allow_all in
  app ←
    (if path_isdir h STATIC_DIR then
       directory ← StaticFiles (path_join w STATIC_DIR "assets");
       let app := add_route app (Mount "/assets" directory "assets") in
       stdout (LineText ("Serving static assets from: " +:+
                         path_join w STATIC_DIR "assets"));;
       mret app
     else
       stdout (LineText
         ("Warning: Frontend 'dist' directory not found at " +:+
          STATIC_DIR +:+ ". Serving API only."));;
       mret app);
  let app := add_route app (APIRoute "POST" "/api/chat" ChatEndpoint) in
  let app := add_route app (APIRoute "POST" "/api/tts" TTSEndpoint) in
  let app :=
    add_route app (APIRoute "GET" "/{full_path:path}" IndexEndpoint) in
  mret app.

Definition HOST (w : World) : string := os_getenv w "HOST" "127.0.0.1".

(** [int(os.getenv("PORT", 8000))]: the default is the integer 8000
    itself. *)
Definition PORT : Startup Z :=
  h ← ask_host;
  match environ (host_world h) !! "PORT" with
  | None => mret 8000%Z
  | Some s =>
      match int_of_str h s with
      | Some port => mret port
      | None => fault (ExceptionRaised (ValueError s))
      end
  end.

(** The script run_server.py: it imports [app], reads HOST and PORT, and
    under the main guard starts the server. *)
Definition run_server : Startup unit :=
  app ← app_module;
  h ← ask_host;
  let HOST := HOST (host_world h) in
  PORT ← PORT;
  if is_main h then
    try_except_Exception
      (stdout (LineStarting HOST PORT);;
       uvicorn_run_call app HOST PORT "info")
      (λ e, stderr (LineFatal e))
  else mret tt.

(** The calls of [uvicorn.run] recorded in a trace. *)
Definition uvicorn_calls (tr : list StartupEvent)
    : list (App * string * Z * string) :=
  omap (λ ev, match ev with
              | UvicornRun app host port log_level =>
                  Some (app, host, port, log_level)
              | _ => None
              end) tr.

(** What is written to the standard error in a trace. *)
Definition stderr_lines (tr : list StartupEvent) : list StartupLine :=
  omap (λ ev, match ev with StdErr line => Some line | _ => None end) tr.

(** A host with the given directories, environment and server behaviour,
    started as the main script. *)
Definition host_with (dirs : list string) (env : gmap string string)
    (server : option Fault) : Host :=
  {| host_world :=
       {| environ := env; frozen := false; MEIPASS := EmptyString;
          module_dir := "/srv/app";
          path_join := λ a b, a +:+ "/" +:+ b;
          path_exists := λ p, bool_decide (p ∈ dirs);
          stdout_encodes := λ _, true;
          http_post := λ _ _ _, PostRaises ConnectionError |};
     path_isdir := λ p, bool_decide (p ∈ dirs);
     is_main := true;
     int_of_str := λ s, if bool_decide (s = "9000") then Some 9000%Z else None;
     uvicorn_run := λ _ _ _ _, server |}.

(** A host with the front end in place, and the application app.py builds
    on it. *)
Definition front_end_host : Host :=
  host_with ["/srv/app/dist"; "/srv/app/dist/assets"] ∅ None.

Definition full_app : App :=
  {| app_middleware := [cors_allow_all];
     app_routes := fastapi_routes ++
                   Mount "/assets" "/srv/app/dist/assets" "assets"
                     :: api_routes |}.

(** The application app.py builds when there is no static directory. *)
Definition api_only_app : App :=
  {| app_middleware := [cors_allow_all];
     app_routes := fastapi_routes ++ api_routes |}.

(** A host without front end whose server raises an exception, and one
    whose server is interrupted. *)
Definition failing_server_host : Host :=
  host_with [] {[ "PORT" := "9000" ]}
    (Some (ExceptionRaised (OtherException "server failed"))).

Definition interrupted_host : Host :=
  host_with [] {[ "PORT" := "9000" ]} (Some KeyboardInterrupt).

(** * Properties *)

(** ** The monad *)

Lemma Py_bind_ret_l {A B} (a : A) (k : A → Py B) w tr :
  (mret a ≫= k) w tr = k a w tr.
Proof. reflexivity. Qed.

Lemma Py_bind_ret_r {A} (m : Py A) w tr : (m ≫= mret) w tr = m w tr.
Proof.
  unfold mbind, Py_bind, mret, Py_ret. by destruct (m w tr) as [tr' [a|e]].
Qed.

Lemma Py_bind_assoc {A B C} (m : Py A) (k : A → Py B) (k' : B → Py C) w tr :
  ((m ≫= k) ≫= k') w tr = (m ≫= λ a, k a ≫= k') w tr.
Proof.
  unfold mbind, Py_bind. by destruct (m w tr) as [tr' [a|e]].
Qed.

Lemma Py_bind_raise {A B} (e : Exn) (k : A → Py B) w tr :
  (raise e ≫= k) w tr = raise e w tr.
Proof. reflexivity. Qed.

(** Unfolds the chat handler down to the world's answer. *)
Ltac unfold_chat :=
  unfold run, chat_with_ollama;
  cbv [mbind Py_bind ask time_time emit try_except_RequestException
       requests_post print raise raise_for_status response_json].

(** Closes the goal when the status test contradicts the hypothesis that
    the status is no error status. *)
Ltac status_passes r :=
  let E := fresh "E" in
  destruct ((400 <=? status_code r)%Z && (status_code r <? 600)%Z) eqn:E;
  [apply andb_prop in E as [?%Z.leb_le ?%Z.ltb_lt]; lia|].

(** ** One run of the chat handler *)

Section chat_run.
Context (w : World) (request : ChatRequest).

Let url := ollama_api_url w.
Let payload := ollama_payload w request.

Lemma chat_run_post_raises e :
  http_post w url payload OLLAMA_TIMEOUT = PostRaises e →
  run (chat_with_ollama request) w =
    ([EvTime; EvPost url payload OLLAMA_TIMEOUT;
      EvPrint (LogOllamaError e url)],
     Raised RemoteUnavailable).
Proof.
  intros Hpost. unfold_chat. fold url payload. by rewrite Hpost.
Qed.

Lemma chat_run_error_status r :
  http_post w url payload OLLAMA_TIMEOUT = PostReturns r →
  (400 ≤ status_code r < 600)%Z →
  run (chat_with_ollama request) w =
    ([EvTime; EvPost url payload OLLAMA_TIMEOUT;
      EvPrint (LogOllamaError (HTTPError (status_code r)) url)],
     Raised RemoteUnavailable).
Proof.
  intros Hpost [Hlo Hhi]. unfold_chat. fold url payload. rewrite Hpost.
  apply Z.leb_le in Hlo. apply Z.ltb_lt in Hhi.
  rewrite Hlo, Hhi. reflexivity.
Qed.

Lemma chat_run_not_json r :
  http_post w url payload OLLAMA_TIMEOUT = PostReturns r →
  ¬ (400 ≤ status_code r < 600)%Z →
  json_body r = None →
  run (chat_with_ollama request) w =
    ([EvTime; EvPost url payload OLLAMA_TIMEOUT; EvTime;
      EvPrint LogResponseTime;
      EvPrint (LogOllamaError JSONDecodeError url)],
     Raised RemoteUnavailable).
Proof.
  intros Hpost Hstatus Hjson. unfold_chat. fold url payload.
  rewrite Hpost, Hjson. status_passes r. reflexivity.
Qed.

Lemma chat_run_received r body :
  http_post w url payload OLLAMA_TIMEOUT = PostReturns r →
  ¬ (400 ≤ status_code r < 600)%Z →
  json_body r = Some body →
  run (chat_with_ollama request) w =
    ([EvTime; EvPost url payload OLLAMA_TIMEOUT; EvTime;
      EvPrint LogResponseTime],
     upstream_outcome body).
Proof.
  intros Hpost Hstatus Hjson. unfold_chat. fold url payload.
  rewrite Hpost, Hjson. status_passes r.
  cbv [mret Py_ret py_and py_get py_getitem mbind Py_bind raise
       upstream_outcome].
  destruct body as [| | | | | |d]; try reflexivity.
  destruct (d !! "message") as [m|] eqn:Hm; simpl; [|reflexivity].
  destruct (truthy m) eqn:Ht; [|rewrite Ht; reflexivity].
  destruct m as [| | | | | |dm]; try reflexivity.
  destruct (dm !! "content") as [c|] eqn:Hc; simpl; [|reflexivity].
  destruct (truthy c); reflexivity.
Qed.

(** Whatever the model server does, the handler calls it exactly once,
    with [ollama_payload] and [OLLAMA_TIMEOUT]. *)
Lemma chat_outbound_calls :
  outbound_calls (run (chat_with_ollama request) w).1 =
    [(url, payload, OLLAMA_TIMEOUT)].
Proof.
  destruct (http_post w url payload OLLAMA_TIMEOUT) as [e|r] eqn:Hpost.
  { by rewrite (chat_run_post_raises e). }
  destruct (decide (400 ≤ status_code r < 600)%Z) as [Hs|Hs].
  { by rewrite (chat_run_error_status r). }
  destruct (json_body r) as [body|] eqn:Hjson.
  - by rewrite (chat_run_received r body).
  - by rewrite (chat_run_not_json r).
Qed.

Lemma forwarded_messages_build :
  forwarded_messages w request = [build_messages request].
Proof. unfold forwarded_messages. by rewrite chat_outbound_calls. Qed.
End chat_run.

Lemma fold_append_history (h : list ChatMessage) (acc : list OllamaMessage) :
  fold_left append_history h acc = acc ++ (forwarded_entry <$> h).
Proof.
  revert acc. induction h as [|msg h IH]; intros acc; simpl.
  - by rewrite app_nil_r.
  - rewrite IH. unfold append_history, forwarded_entry.
    by rewrite <- app_assoc.
Qed.

(** The loop of the source as a map over the history. *)
Lemma build_messages_eq (request : ChatRequest) :
  build_messages request =
    system_message :: (forwarded_entry <$> default [] (history request)) ++
      [{| msg_role := "user"; msg_content := prompt request |}].
Proof.
  unfold build_messages.
  destruct (history request) as [[|msg h]|]; try reflexivity.
  by rewrite fold_append_history.
Qed.

Lemma forwarded_entry_role (msg : ChatMessage) :
  (role msg = "user" ∨ role msg = "assistant" →
     msg_role (forwarded_entry msg) = role msg) ∧
  (role msg ≠ "user" → role msg ≠ "assistant" →
     msg_role (forwarded_entry msg) = "assistant").
Proof.
  unfold forwarded_entry; simpl. split.
  - intros Hr. rewrite bool_decide_eq_true_2; [done|].
    destruct Hr as [->| ->]; repeat constructor.
  - intros Hu Ha. rewrite bool_decide_eq_false_2; [done|].
    intros [?|[?|[]%elem_of_nil]%elem_of_cons]%elem_of_cons; done.
Qed.

Lemma forwarded_entry_not_system (msg : ChatMessage) :
  msg_role (forwarded_entry msg) ≠ "system".
Proof.
  unfold forwarded_entry; simpl. case_bool_decide as Hr; [|done].
  apply elem_of_cons in Hr as [->|Hr]; [done|].
  apply elem_of_cons in Hr as [->|Hr]; [done|].
  by apply elem_of_nil in Hr.
Qed.

(** ** The forwarded message sequence *)

(** C1.  Every entry of the request's history is forwarded, at its own
    position after the system entry: entry [i] of the history is entry
    [i + 1] of the one sequence sent, and the sequence has the history's
    length plus two.  Its content is unchanged; its role is unchanged when
    it is "user" or "assistant" and is "assistant" otherwise. *)
Theorem history_forwarded_normalized (w : World) (request : ChatRequest)
    (h : list ChatMessage) (i : nat) (msg : ChatMessage) :
  history request = Some h →
  h !! i = Some msg →
  ∃ msgs fwd,
    forwarded_messages w request = [msgs] ∧
    length msgs = S (S (length h)) ∧
    msgs !! S i = Some fwd ∧
    msg_content fwd = content msg ∧
    (role msg = "user" ∨ role msg = "assistant" → msg_role fwd = role msg) ∧
    (role msg ≠ "user" → role msg ≠ "assistant" → msg_role fwd = "assistant").
Proof.
  intros Hh Hi. exists (build_messages request), (forwarded_entry msg).
  split; [apply forwarded_messages_build|].
  rewrite build_messages_eq, Hh. simpl.
  split; [by rewrite length_app, length_fmap, Nat.add_comm|].
  split.
  - rewrite lookup_app_l by (rewrite length_fmap; by eapply lookup_lt_Some).
    by rewrite list_lookup_fmap, Hi.
  - split; [done|]. apply forwarded_entry_role.
Qed.

Lemma history_forwarded_normalized_witness :
  ∃ msgs fwd,
    forwarded_messages (world_answering (PostRaises ConnectionError))
      {| prompt := "hi";
         history := Some [{| role := "user"; content := "a" |};
                          {| role := "tool"; content := "b" |}] |} = [msgs] ∧
    length msgs = 4 ∧
    msgs !! 2 = Some fwd ∧
    msg_content fwd = "b" ∧
    ("tool" = "user" ∨ "tool" = "assistant" → msg_role fwd = "tool") ∧
    ("tool" ≠ "user" → "tool" ≠ "assistant" → msg_role fwd = "assistant").
Proof.
  apply (history_forwarded_normalized
           (world_answering (PostRaises ConnectionError))
           {| prompt := "hi";
              history := Some [{| role := "user"; content := "a" |};
                               {| role := "tool"; content := "b" |}] |}
           [{| role := "user"; content := "a" |};
            {| role := "tool"; content := "b" |}]
           1 {| role := "tool"; content := "b" |});
    reflexivity.
Defined.

(** C4.  The one sequence sent starts with the system entry carrying the
    persona instruction, and no entry after it has the system role. *)
Theorem outbound_starts_with_single_system (w : World)
    (request : ChatRequest) :
  ∃ rest,
    forwarded_messages w request =
      [{| msg_role := "system"; msg_content := system_instruction |} :: rest] ∧
    Forall (λ m, msg_role m ≠ "system") rest.
Proof.
  rewrite forwarded_messages_build, build_messages_eq.
  eexists. split; [reflexivity|].
  apply Forall_app. split.
  - apply Forall_fmap, Forall_forall. intros msg _.
    apply forwarded_entry_not_system.
  - by repeat constructor.
Qed.

(** C5.  The last entry of the one sequence sent is a user entry whose
    content is the request's prompt, whatever the history. *)
Theorem prompt_forwarded_last (w : World) (request : ChatRequest) :
  ∃ msgs,
    forwarded_messages w request = [msgs] ∧
    last msgs = Some {| msg_role := "user"; msg_content := prompt request |}.
Proof.
  exists (build_messages request).
  split; [apply forwarded_messages_build|].
  rewrite build_messages_eq, app_comm_cons. apply last_snoc.
Qed.

(** C6.  With a history that is absent or empty, the sequence sent is the
    system instruction followed by the prompt as a user entry, and nothing
    else. *)
Theorem empty_history_two_entries (w : World) (request : ChatRequest) :
  history request = None ∨ history request = Some [] →
  forwarded_messages w request =
    [[{| msg_role := "system"; msg_content := system_instruction |};
      {| msg_role := "user"; msg_content := prompt request |}]].
Proof.
  intros Hh. rewrite forwarded_messages_build, build_messages_eq.
  by destruct Hh as [-> | ->].
Qed.

Lemma empty_history_two_entries_witness :
  forwarded_messages (world_answering (PostRaises ReadTimeout))
    {| prompt := "hello"; history := Some [] |} =
    [[{| msg_role := "system"; msg_content := system_instruction |};
      {| msg_role := "user"; msg_content := "hello" |}]].
Proof.
  apply (empty_history_two_entries
           (world_answering (PostRaises ReadTimeout))
           {| prompt := "hello"; history := Some [] |}).
  right. reflexivity.
Defined.

(** ** The outbound call *)

(** C7.  The handler makes one POST: to the configured base URL (the
    environment's OLLAMA_URL, or the default) followed by /api/chat, with a
    payload naming the configured model (OLLAMA_MODEL, or the default),
    carrying the built message sequence with [stream] false, and with the
    timeout 300, which no configuration changes. *)
Theorem payload_posted_to_configured_endpoint (w : World)
    (request : ChatRequest) :
  outbound_calls (run (chat_with_ollama request) w).1 =
    [(default "http://localhost:11434" (environ w !! "OLLAMA_URL")
        +:+ "/api/chat",
      {| model := default "ai-girlfriend" (environ w !! "OLLAMA_MODEL");
         messages := build_messages request;
         stream := false |},
      300%Z)].
Proof. apply chat_outbound_calls. Qed.

(** ** Failures of the model server *)




(** ** Reading the model server's answer *)

(** C2 as stated fails: the body [{"message": "hello"}] is received with
    status 200 and has no content under its message, yet the handler
    neither returns a reply nor signals EmptyUpstreamResponse: the
    [AttributeError] of ["hello".get] escapes it. *)
Lemma string_message_unhandled :
  http_post string_message_world
    (ollama_api_url string_message_world)
    (ollama_payload string_message_world
       {| prompt := "hi"; history := None |})
    OLLAMA_TIMEOUT = PostReturns string_message_response ∧
  message_content (PyDict {[ "message" := PyStr "hello" ]}) = None ∧
  (run (chat_with_ollama {| prompt := "hi"; history := None |})
     string_message_world).2 = Raised AttributeError ∧
  (run (chat_with_ollama {| prompt := "hi"; history := None |})
     string_message_world).2 ≠ Raised EmptyUpstreamResponse ∧
  ∀ reply,
    (run (chat_with_ollama {| prompt := "hi"; history := None |})
       string_message_world).2 ≠ Returned reply.
Proof.
  split; [reflexivity|]. split; [by vm_compute|].
  assert (Hrun : (run (chat_with_ollama {| prompt := "hi"; history := None |})
                    string_message_world).2 = Raised AttributeError)
    by (vm_compute; reflexivity).
  rewrite Hrun. split; [done|]. split; [discriminate|]. intros reply.
  discriminate.
Qed.

(** C2, amended.  For a received body that is a JSON object whose message
    is absent, false or a JSON object: when the message has a content that
    is true (for a text: not empty), the handler returns that very content
    as the response; otherwise it raises the HTTPException with status 500
    for an empty response.  Exactly one of the two happens. *)
Theorem reply_or_empty_response (w : World) (request : ChatRequest)
    (r : Response) (body : pyvalue) :
  http_post w (ollama_api_url w) (ollama_payload w request) OLLAMA_TIMEOUT
    = PostReturns r →
  ¬ (400 ≤ status_code r < 600)%Z →
  json_body r = Some body →
  well_shaped body = true →
  ((∃ c, message_content body = Some c ∧ truthy c = true ∧
         (run (chat_with_ollama request) w).2 = Returned {| response := c |}) ∨
   ((∀ c, message_content body = Some c → truthy c = false) ∧
    (run (chat_with_ollama request) w).2 =
      Raised (HTTPException 500 empty_response_detail))) ∧
  (∀ s, message_content body = Some (PyStr s) → s ≠ EmptyString →
        (run (chat_with_ollama request) w).2 =
          Returned {| response := PyStr s |}).
Proof.
  intros Hpost Hstatus Hjson Hshape.
  rewrite (chat_run_received w request r body Hpost Hstatus Hjson). simpl.
  assert (Hcases :
    (∃ c, message_content body = Some c ∧ truthy c = true ∧
          upstream_outcome body = Returned {| response := c |}) ∨
    ((∀ c, message_content body = Some c → truthy c = false) ∧
     upstream_outcome body = Raised EmptyUpstreamResponse)).
  { destruct body as [| | | | | |d]; try discriminate Hshape.
    unfold message_content, upstream_outcome, well_shaped in *.
    destruct (d !! "message") as [m|]; [|right; by split].
    destruct m as [|b|z|f|s|l|dm].
    1-6: apply negb_true_iff in Hshape; rewrite Hshape; right; by split.
    destruct (truthy (PyDict dm)) eqn:Hm.
    - destruct (dm !! "content") as [c|]; [|right; by split].
      destruct (truthy c) eqn:Hc.
      + left. by exists c.
      + right. split; [|done]. by intros c' [= <-].
    - right. split; [|done]. intros c Hc.
      apply negb_false_iff, bool_decide_eq_true in Hm.
      apply map_size_empty_iff in Hm. subst dm.
      by rewrite lookup_empty in Hc. }
  split; [exact Hcases|].
  intros s Hs Hne. destruct Hcases as [(c & Hc & _ & Hout)|[Hnone _]].
  - rewrite Hs in Hc. by injection Hc as <-.
  - specialize (Hnone _ Hs). by destruct s.
Qed.

Lemma reply_or_empty_response_witness :
  ((∃ c, message_content
           (PyDict {[ "message" :=
                        PyDict {[ "content" := PyStr "哼，你好呀" ]} ]})
           = Some c ∧ truthy c = true ∧
         (run (chat_with_ollama {| prompt := "你好"; history := None |})
            (world_answering (PostReturns greeting_response))).2
           = Returned {| response := c |}) ∨
   ((∀ c, message_content
            (PyDict {[ "message" :=
                         PyDict {[ "content" := PyStr "哼，你好呀" ]} ]})
            = Some c → truthy c = false) ∧
    (run (chat_with_ollama {| prompt := "你好"; history := None |})
       (world_answering (PostReturns greeting_response))).2 =
      Raised (HTTPException 500 empty_response_detail))) ∧
  (∀ s, message_content
          (PyDict {[ "message" :=
                       PyDict {[ "content" := PyStr "哼，你好呀" ]} ]})
          = Some (PyStr s) → s ≠ EmptyString →
        (run (chat_with_ollama {| prompt := "你好"; history := None |})
           (world_answering (PostReturns greeting_response))).2 =
          Returned {| response := PyStr s |}).
Proof.
  apply (reply_or_empty_response
           (world_answering (PostReturns greeting_response))
           {| prompt := "你好"; history := None |}
           greeting_response
           (PyDict {[ "message" :=
                        PyDict {[ "content" := PyStr "哼，你好呀" ]} ]})).
  - reflexivity.
  - simpl. lia.
  - reflexivity.
  - vm_compute. reflexivity.
Defined.

(** The exceptions that leave the chat handler: the two HTTPExceptions it
    raises itself, and the [AttributeError] of a body that is not shaped as
    the protocol has it. *)
Lemma chat_raises_only (w : World) (request : ChatRequest) (e : Exn) :
  (run (chat_with_ollama request) w).2 = Raised e →
  e = RemoteUnavailable ∨ e = EmptyUpstreamResponse ∨ e = AttributeError.
Proof.
  destruct (http_post w (ollama_api_url w) (ollama_payload w request)
              OLLAMA_TIMEOUT) as [e'|r] eqn:Hpost.
  { rewrite (chat_run_post_raises w request e' Hpost). intros [= <-]. auto. }
  destruct (decide (400 ≤ status_code r < 600)%Z) as [Hs|Hs].
  { rewrite (chat_run_error_status w request r Hpost Hs). intros [= <-]. auto. }
  destruct (json_body r) as [body|] eqn:Hjson.
  2: { rewrite (chat_run_not_json w request r Hpost Hs Hjson).
       intros [= <-]. auto. }
  rewrite (chat_run_received w request r body Hpost Hs Hjson). simpl.
  unfold upstream_outcome.
  repeat case_match; intros [= <-]; auto.
Qed.


(** ** The empty prompt *)



(** ** The TTS stub *)

(** The handler by cases on the standard output. *)
Lemma generate_tts_run (w : World) (request : TTSRequest) :
  run (generate_tts request) w =
    if stdout_encodes w (tts_line request) then
      ([EvPrint (LogText (tts_line request));
        EvSleep (QArith_base.Qmake 1 10)],
       Returned {| audio_base64 := SILENT_WAV_BASE64 |})
    else ([], Raised UnicodeEncodeError).
Proof.
  unfold run, generate_tts.
  cbv [mbind Py_bind print_text asyncio_sleep emit mret Py_ret].
  by destruct (stdout_encodes w (tts_line request)).
Qed.




(** ** The catch-all route *)

(** C10.  Whatever the path requested, when there is no index.html under
    the static root the handler returns the dict with the descriptive
    message; it raises nothing. *)
Theorem missing_index_described (w : World) (full_path : string) :
  path_exists w (path_join w (STATIC_DIR w) "index.html") = false →
  (run (serve_index full_path) w).2 =
    Returned (MessageBody index_missing_message).
Proof.
  intros Hmissing. unfold run, serve_index, index_file_path.
  cbv [mbind Py_bind ask]. by rewrite Hmissing.
Qed.

Lemma missing_index_described_witness :
  (run (serve_index "settings/profile")
     (world_answering (PostRaises ConnectionError))).2 =
    Returned (MessageBody index_missing_message).
Proof.
  apply (missing_index_described
           (world_answering (PostRaises ConnectionError))
           "settings/profile").
  reflexivity.
Defined.

(** ** The examples of the specification *)

Example chat_greeting :
  run (chat_with_ollama {| prompt := "你好"; history := None |})
    (world_answering (PostReturns greeting_response)) =
    ([EvTime;
      EvPost "http://localhost:11434/api/chat"
        {| model := "ai-girlfriend";
           messages := [system_message;
                        {| msg_role := "user"; msg_content := "你好" |}];
           stream := false |} 300;
      EvTime; EvPrint LogResponseTime],
     Returned {| response := PyStr "哼，你好呀" |}).
Proof. vm_compute. reflexivity. Qed.

Example chat_message_without_content :
  (run (chat_with_ollama {| prompt := "hi"; history := None |})
     (world_answering
        (PostReturns {| status_code := 200;
                        json_body := Some (PyDict {[ "message" := PyDict ∅ ]})
                     |}))).2 =
    Raised EmptyUpstreamResponse.
Proof. vm_compute. reflexivity. Qed.

Example chat_server_unreachable :
  (run (chat_with_ollama {| prompt := "hi"; history := None |})
     (world_answering (PostRaises ConnectionError))).2 =
    Raised (HTTPException 500 remote_failure_detail).
Proof. vm_compute. reflexivity. Qed.

Example chat_body_not_an_object :
  (run (chat_with_ollama {| prompt := "hi"; history := None |})
     (world_answering
        (PostReturns {| status_code := 200;
                        json_body := Some (PyList []) |}))).2 =
    Raised AttributeError.
Proof. vm_compute. reflexivity. Qed.

Example chat_history_roles :
  build_messages
    {| prompt := "c";
       history := Some [{| role := "system"; content := "a" |};
                        {| role := "User"; content := "b" |};
                        {| role := "user"; content := EmptyString |}] |} =
    [system_message;
     {| msg_role := "assistant"; msg_content := "a" |};
     {| msg_role := "assistant"; msg_content := "b" |};
     {| msg_role := "user"; msg_content := EmptyString |};
     {| msg_role := "user"; msg_content := "c" |}].
Proof. vm_compute. reflexivity. Qed.

Example tts_log_line :
  (run (generate_tts {| text := "你好"; voice_name := "Silent" |})
     (world_answering (PostRaises ConnectionError))).1 =
    [EvPrint (LogText
       "TTS Request received, returning silent placeholder for text: 你好...");
     EvSleep (QArith_base.Qmake 1 10)].
Proof. vm_compute. reflexivity. Qed.


(** * Further properties of the handlers *)

(** ** The chat handler: what escapes it and what it logs *)

Lemma upstream_outcome_raises (body : pyvalue) (e : Exn) :
  upstream_outcome body = Raised e →
  e = EmptyUpstreamResponse ∨ e = AttributeError.
Proof.
  unfold upstream_outcome. repeat case_match; intros [= <-]; auto.
Qed.

Lemma upstream_outcome_attribute_error (body : pyvalue) :
  upstream_outcome body = Raised AttributeError ↔ well_shaped body = false.
Proof.
  unfold upstream_outcome, well_shaped.
  destruct body as [| | | | | |d]; try done.
  destruct (d !! "message") as [m|]; [|done].
  destruct m as [|b|z|f|s|l|dm].
  1-6: match goal with
       | |- context [truthy ?v] => destruct (truthy v); simpl; split; done
       end.
  repeat case_match; split; done.
Qed.

(** X1.  For a received body, the [AttributeError] escapes the handler
    exactly when the body is not a JSON object or its message is a true
    value that is not a JSON object. *)
Theorem attribute_error_iff_misshaped (w : World) (request : ChatRequest)
    (r : Response) (body : pyvalue) :
  http_post w (ollama_api_url w) (ollama_payload w request) OLLAMA_TIMEOUT
    = PostReturns r →
  ¬ (400 ≤ status_code r < 600)%Z →
  json_body r = Some body →
  (run (chat_with_ollama request) w).2 = Raised AttributeError ↔
  well_shaped body = false.
Proof.
  intros Hpost Hstatus Hjson.
  rewrite (chat_run_received w request r body Hpost Hstatus Hjson). simpl.
  apply upstream_outcome_attribute_error.
Qed.

Lemma attribute_error_iff_misshaped_witness :
  (run (chat_with_ollama {| prompt := "hi"; history := None |})
     string_message_world).2 = Raised AttributeError ↔
  well_shaped (PyDict {[ "message" := PyStr "hello" ]}) = false.
Proof.
  apply (attribute_error_iff_misshaped string_message_world
           {| prompt := "hi"; history := None |}
           string_message_response
           (PyDict {[ "message" := PyStr "hello" ]})).
  - reflexivity.
  - simpl. lia.
  - reflexivity.
Defined.

(** X2.  No exception of the HTTP client leaves the handler, and the
    subscripts [data["message"]["content"]] never fail: the handler raises
    no [RequestException], no [KeyError] and no [TypeError]. *)
Theorem chat_never_leaks_client_errors (w : World) (request : ChatRequest) :
  (∀ e, (run (chat_with_ollama request) w).2 ≠ Raised (RequestError e)) ∧
  (∀ key, (run (chat_with_ollama request) w).2 ≠ Raised (KeyError key)) ∧
  (run (chat_with_ollama request) w).2 ≠ Raised TypeError.
Proof.
  unfold RemoteUnavailable, EmptyUpstreamResponse.
  repeat split; intros; intros Hrun;
    apply chat_raises_only in Hrun as [?|[?|?]]; discriminate.
Qed.

(** X3.  A conversation continues: when the client sends back the history
    it had, extended by its last prompt as a user entry and the reply as an
    assistant entry, the sequence forwarded is the one forwarded before,
    followed by the reply and the new prompt. *)
Theorem conversation_extends (w w' : World) (h : option (list ChatMessage))
    (prompt1 reply prompt2 : string) :
  ∃ before,
    forwarded_messages w {| prompt := prompt1; history := h |} = [before] ∧
    forwarded_messages w'
      {| prompt := prompt2;
         history := Some (default [] h ++
                          [{| role := "user"; content := prompt1 |};
                           {| role := "assistant"; content := reply |}]) |} =
      [before ++ [{| msg_role := "assistant"; msg_content := reply |};
                  {| msg_role := "user"; msg_content := prompt2 |}]].
Proof.
  exists (build_messages {| prompt := prompt1; history := h |}).
  rewrite !forwarded_messages_build. split; [done|]. f_equal.
  rewrite !build_messages_eq. simpl.
  rewrite fmap_app. simpl. by rewrite <- !app_assoc.
Qed.

(** X4.  The handler logs an error line exactly when it signals the remote
    failure; the empty-response error and the [AttributeError] are raised
    without any error line. *)
Theorem error_logged_iff_remote_unavailable (w : World)
    (request : ChatRequest) :
  (run (chat_with_ollama request) w).2 = Raised RemoteUnavailable ↔
  ∃ e, EvPrint (LogOllamaError e (ollama_api_url w)) ∈
         (run (chat_with_ollama request) w).1.
Proof.
  destruct (http_post w (ollama_api_url w) (ollama_payload w request)
              OLLAMA_TIMEOUT) as [e'|r] eqn:Hpost.
  { rewrite (chat_run_post_raises w request e' Hpost). simpl.
    split; [|done]. intros _. exists e'. repeat constructor. }
  destruct (decide (400 ≤ status_code r < 600)%Z) as [Hs|Hs].
  { rewrite (chat_run_error_status w request r Hpost Hs). simpl.
    split; [|done]. intros _. eexists. repeat constructor. }
  destruct (json_body r) as [body|] eqn:Hjson.
  2: { rewrite (chat_run_not_json w request r Hpost Hs Hjson). simpl.
       split; [|done]. intros _. eexists. repeat constructor. }
  rewrite (chat_run_received w request r body Hpost Hs Hjson). simpl. split.
  - intros [He|He]%upstream_outcome_raises; discriminate.
  - intros [e He].
    repeat (apply elem_of_cons in He as [He|He]; [discriminate|]).
    by apply elem_of_nil in He.
Qed.

(** ** The TTS stub: its log line and its effects *)


Lemma str_prefix_short (n : nat) (s : string) :
  code_points s ≤ n → str_prefix n s = s.
Proof.
  revert n. induction s as [|c s IH]; intros n; simpl; [done|].
  destruct (utf8_continuation c); intros Hn.
  - by rewrite IH.
  - destruct n as [|n]; [lia|]. rewrite IH; [done|lia].
Qed.





(** X6.  When the standard output can encode the line, a text of at most
    50 code points is logged whole. *)
Theorem tts_short_text_logged_whole (w : World) (request : TTSRequest) :
  code_points (text request) ≤ 50 →
  stdout_encodes w
    ("TTS Request received, returning silent placeholder for text: "
     +:+ text request +:+ "...") = true →
  (run (generate_tts request) w).1 =
    [EvPrint (LogText
       ("TTS Request received, returning silent placeholder for text: "
        +:+ text request +:+ "..."));
     EvSleep (QArith_base.Qmake 1 10)].
Proof.
  intros Hshort Hline. rewrite generate_tts_run. unfold tts_line.
  rewrite (str_prefix_short 50 (text request) Hshort), Hline. done.
Qed.

Lemma tts_short_text_logged_whole_witness :
  (run (generate_tts {| text := "你好"; voice_name := "Silent" |})
     world_with_index).1 =
    [EvPrint (LogText
       ("TTS Request received, returning silent placeholder for text: "
        +:+ "你好" +:+ "..."));
     EvSleep (QArith_base.Qmake 1 10)].
Proof.
  apply (tts_short_text_logged_whole world_with_index
           {| text := "你好"; voice_name := "Silent" |}).
  - vm_compute. lia.
  - reflexivity.
Defined.

(** X15.  When the standard output cannot encode the log line, the TTS
    handler raises [UnicodeEncodeError] at its print: nothing is logged,
    it does not sleep, and no response is returned. *)
Theorem tts_fails_when_line_not_encodable (w : World)
    (request : TTSRequest) :
  stdout_encodes w (tts_line request) = false →
  run (generate_tts request) w = ([], Raised UnicodeEncodeError).
Proof. intros Hline. by rewrite generate_tts_run, Hline. Qed.

Lemma tts_fails_when_line_not_encodable_witness :
  run (generate_tts {| text := "你好"; voice_name := "Silent" |})
    ascii_console_world = ([], Raised UnicodeEncodeError).
Proof.
  apply (tts_fails_when_line_not_encodable ascii_console_world
           {| text := "你好"; voice_name := "Silent" |}).
  vm_compute. reflexivity.
Defined.

(** ** The catch-all route when the entry document is there *)

(** X7.  When index.html exists under the static root, the catch-all
    handler answers every path with a [FileResponse] of that one file,
    [dist/index.html] under [sys._MEIPASS] in a frozen run and under the
    module's directory otherwise, and logs nothing. *)
Theorem index_served_for_every_path (w : World) (full_path : string) :
  path_exists w (index_file_path w) = true →
  run (serve_index full_path) w =
    ([], Returned (FileResponse
           (path_join w
              (path_join w (if frozen w then MEIPASS w else module_dir w)
                 "dist")
              "index.html"))).
Proof.
  intros Hexists. unfold run, serve_index.
  cbv [mbind Py_bind ask]. by rewrite Hexists.
Qed.

Lemma index_served_for_every_path_witness :
  run (serve_index "settings/profile") world_with_index =
    ([], Returned (FileResponse "/tmp/_MEI1/dist/index.html")).
Proof.
  apply (index_served_for_every_path world_with_index "settings/profile").
  reflexivity.
Defined.

(** * Start-up *)

Ltac unfold_startup :=
  cbv [mbind Startup_bind mret Startup_ret ask_host fault stdout stderr
       StaticFiles uvicorn_run_call try_except_Exception].

Section startup.
Context (h : Host).

Let w := host_world h.
Let dist := STATIC_DIR w.
Let assets := path_join w dist "assets".

(** The module body of app.py, by cases on the directories. *)
Lemma app_module_run (tr : list StartupEvent) :
  app_module h tr =
    if path_isdir h dist then
      if path_isdir h assets then
        (tr ++ [StdOut (LineText ("Serving static assets from: " +:+ assets))],
         Done {| app_middleware := [cors_allow_all];
                 app_routes := fastapi_routes ++
                               Mount "/assets" assets "assets" :: api_routes |})
      else (tr, Faulted (ExceptionRaised (RuntimeError assets)))
    else
      (tr ++ [StdOut (LineText
                ("Warning: Frontend 'dist' directory not found at " +:+
                 dist +:+ ". Serving API only."))],
       Done api_only_app).
Proof.
  unfold app_module. unfold_startup. fold w. fold dist. fold assets.
  destruct (path_isdir h dist); [|reflexivity].
  destruct (path_isdir h assets); reflexivity.
Qed.

(** Reading the port writes nothing. *)
Lemma PORT_silent (tr : list StartupEvent) :
  PORT h tr = (tr, (run_startup PORT h).2).
Proof.
  unfold run_startup, PORT. unfold_startup.
  destruct (environ (host_world h) !! "PORT") as [s|]; [|reflexivity].
  destruct (int_of_str h s); reflexivity.
Qed.

(** The script when the application loads and the port is read. *)
Lemma run_server_loaded (tr0 : list StartupEvent) (app : App) (port : Z) :
  run_startup app_module h = (tr0, Done app) →
  (run_startup PORT h).2 = Done port →
  run_startup run_server h =
    if is_main h then
      match uvicorn_run h app (HOST w) port "info" with
      | None =>
          (tr0 ++ [StdOut (LineStarting (HOST w) port);
                   UvicornRun app (HOST w) port "info"], Done tt)
      | Some (ExceptionRaised e) =>
          (tr0 ++ [StdOut (LineStarting (HOST w) port);
                   UvicornRun app (HOST w) port "info";
                   StdErr (LineFatal e)], Done tt)
      | Some f =>
          (tr0 ++ [StdOut (LineStarting (HOST w) port);
                   UvicornRun app (HOST w) port "info"], Faulted f)
      end
    else (tr0, Done tt).
Proof.
  unfold run_startup at 1 3. intros Happ Hport. unfold run_server.
  cbv [mbind Startup_bind]. rewrite Happ.
  cbv [ask_host]. rewrite PORT_silent, Hport. fold w.
  destruct (is_main h); [|reflexivity].
  unfold_startup.
  destruct (uvicorn_run h app (HOST w) port "info") as [[e|c|]|];
    by rewrite <- ?app_assoc.
Qed.

(** The script when the application does not load, or the port is no
    integer. *)
Lemma run_server_import_fails (tr0 : list StartupEvent) (f : Fault) :
  run_startup app_module h = (tr0, Faulted f) →
  run_startup run_server h = (tr0, Faulted f).
Proof.
  unfold run_startup. intros Happ. unfold run_server.
  cbv [mbind Startup_bind]. by rewrite Happ.
Qed.

Lemma run_server_port_fails (tr0 : list StartupEvent) (app : App) (f : Fault) :
  run_startup app_module h = (tr0, Done app) →
  (run_startup PORT h).2 = Faulted f →
  run_startup run_server h = (tr0, Faulted f).
Proof.
  unfold run_startup at 1 3. intros Happ Hport. unfold run_server.
  cbv [mbind Startup_bind]. rewrite Happ.
  cbv [ask_host]. by rewrite PORT_silent, Hport.
Qed.

End startup.

(** X8.  When the static directory is there but holds no assets directory,
    [StaticFiles] raises while app.py is loaded: the application is not
    built, nothing is printed, and run_server.py, which imports it, ends
    with the same [RuntimeError] before it starts anything. *)
Theorem assets_directory_required (h : Host) :
  path_isdir h (STATIC_DIR (host_world h)) = true →
  path_isdir h
    (path_join (host_world h) (STATIC_DIR (host_world h)) "assets") = false →
  run_startup app_module h =
    ([], Faulted (ExceptionRaised (RuntimeError
           (path_join (host_world h) (STATIC_DIR (host_world h)) "assets")))) ∧
  run_startup run_server h =
    ([], Faulted (ExceptionRaised (RuntimeError
           (path_join (host_world h) (STATIC_DIR (host_world h)) "assets")))).
Proof.
  intros Hdist Hassets.
  assert (Happ : run_startup app_module h =
    ([], Faulted (ExceptionRaised (RuntimeError
           (path_join (host_world h) (STATIC_DIR (host_world h)) "assets"))))).
  { unfold run_startup. by rewrite app_module_run, Hdist, Hassets. }
  split; [exact Happ|]. by apply run_server_import_fails.
Qed.

Lemma assets_directory_required_witness :
  run_startup app_module (host_with ["/srv/app/dist"] ∅ None) =
    ([], Faulted (ExceptionRaised (RuntimeError "/srv/app/dist/assets"))) ∧
  run_startup run_server (host_with ["/srv/app/dist"] ∅ None) =
    ([], Faulted (ExceptionRaised (RuntimeError "/srv/app/dist/assets"))).
Proof.
  apply (assets_directory_required (host_with ["/srv/app/dist"] ∅ None));
    reflexivity.
Defined.

(** X9.  Whenever app.py loads, the application has the one CORS
    middleware that allows every origin, method and header with
    credentials; its routes are the four that [FastAPI()] registers itself
    (/openapi.json, /docs, /docs/oauth2-redirect, /redoc), then the assets
    mount, if the static directory is there, then POST /api/chat,
    POST /api/tts and, last, the catch-all GET route; and one line has been
    printed. *)
Theorem app_module_routes (h : Host) (tr : list StartupEvent) (app : App) :
  run_startup app_module h = (tr, Done app) →
  app_middleware app =
    [{| allow_origins := ["*"]; allow_credentials := true;
        allow_methods := ["*"]; allow_headers := ["*"] |}] ∧
  app_routes app =
    [DocRoute "/openapi.json"; DocRoute "/docs";
     DocRoute "/docs/oauth2-redirect"; DocRoute "/redoc"] ++
    (if path_isdir h (STATIC_DIR (host_world h))
     then [Mount "/assets"
             (path_join (host_world h) (STATIC_DIR (host_world h)) "assets")
             "assets"]
     else []) ++
    [APIRoute "POST" "/api/chat" ChatEndpoint;
     APIRoute "POST" "/api/tts" TTSEndpoint;
     APIRoute "GET" "/{full_path:path}" IndexEndpoint] ∧
  length tr = 1.
Proof.
  unfold run_startup. rewrite app_module_run.
  destruct (path_isdir h (STATIC_DIR (host_world h)));
    [destruct (path_isdir h _)|]; intros [= <- <-]; done.
Qed.

Lemma app_module_routes_witness :
  app_middleware full_app =
    [{| allow_origins := ["*"]; allow_credentials := true;
        allow_methods := ["*"]; allow_headers := ["*"] |}] ∧
  app_routes full_app =
    [DocRoute "/openapi.json"; DocRoute "/docs";
     DocRoute "/docs/oauth2-redirect"; DocRoute "/redoc"] ++
    (if path_isdir front_end_host (STATIC_DIR (host_world front_end_host))
     then [Mount "/assets"
             (path_join (host_world front_end_host)
                (STATIC_DIR (host_world front_end_host)) "assets")
             "assets"]
     else []) ++
    [APIRoute "POST" "/api/chat" ChatEndpoint;
     APIRoute "POST" "/api/tts" TTSEndpoint;
     APIRoute "GET" "/{full_path:path}" IndexEndpoint] ∧
  length [StdOut (LineText
            "Serving static assets from: /srv/app/dist/assets")] = 1.
Proof.
  apply (app_module_routes front_end_host).
  reflexivity.
Defined.



(** X11.  An [Exception] raised by [uvicorn.run] does not leave the main
    script: it is written to the standard error after the start line and
    the one call, and the script ends normally. *)
Theorem startup_exception_swallowed (h : Host) (tr0 : list StartupEvent)
    (app : App) (port : Z) (e : PyException) :
  is_main h = true →
  run_startup app_module h = (tr0, Done app) →
  (run_startup PORT h).2 = Done port →
  uvicorn_run h app (os_getenv (host_world h) "HOST" "127.0.0.1") port "info"
    = Some (ExceptionRaised e) →
  run_startup run_server h =
    (tr0 ++ [StdOut (LineStarting
                       (os_getenv (host_world h) "HOST" "127.0.0.1") port);
             UvicornRun app (os_getenv (host_world h) "HOST" "127.0.0.1")
               port "info";
             StdErr (LineFatal e)],
     Done tt).
Proof.
  intros Hmain Happ Hport Hrun.
  rewrite (run_server_loaded h tr0 app port Happ Hport), Hmain.
  unfold HOST. by rewrite Hrun.
Qed.

Lemma startup_exception_swallowed_witness :
  run_startup run_server failing_server_host =
    ([StdOut (LineText
        "Warning: Frontend 'dist' directory not found at /srv/app/dist. Serving API only.")]
     ++ [StdOut (LineStarting
                   (os_getenv (host_world failing_server_host) "HOST" "127.0.0.1")
                   9000);
         UvicornRun api_only_app
           (os_getenv (host_world failing_server_host) "HOST" "127.0.0.1")
           9000 "info";
         StdErr (LineFatal (OtherException "server failed"))],
     Done tt).
Proof.
  apply (startup_exception_swallowed failing_server_host
           [StdOut (LineText
              "Warning: Frontend 'dist' directory not found at /srv/app/dist. Serving API only.")]
           api_only_app 9000 (OtherException "server failed"));
    reflexivity.
Defined.

(** X12.  What [except Exception] does not catch leaves the script: when
    [uvicorn.run] ends with [SystemExit] or [KeyboardInterrupt], the main
    script ends with it and writes nothing to the standard error. *)
Theorem base_exception_propagates (h : Host) (tr0 : list StartupEvent)
    (app : App) (port : Z) (f : Fault) :
  is_main h = true →
  run_startup app_module h = (tr0, Done app) →
  (run_startup PORT h).2 = Done port →
  uvicorn_run h app (os_getenv (host_world h) "HOST" "127.0.0.1") port "info"
    = Some f →
  (∀ e, f ≠ ExceptionRaised e) →
  (run_startup run_server h).2 = Faulted f ∧
  stderr_lines (run_startup run_server h).1 = [].
Proof.
  intros Hmain Happ Hport Hrun Hbase.
  rewrite (run_server_loaded h tr0 app port Happ Hport), Hmain.
  unfold HOST. rewrite Hrun.
  assert (Hquiet : stderr_lines tr0 = []).
  { unfold run_startup in Happ. rewrite app_module_run in Happ.
    repeat case_match; try discriminate; revert Happ; by intros [= <- _]. }
  unfold stderr_lines in *.
  destruct f as [e|c|]; [by destruct (Hbase e)| |];
    (split; [reflexivity|]); cbn [fst]; by rewrite omap_app, Hquiet.
Qed.

Lemma base_exception_propagates_witness :
  (run_startup run_server interrupted_host).2 = Faulted KeyboardInterrupt ∧
  stderr_lines (run_startup run_server interrupted_host).1 = [].
Proof.
  apply (base_exception_propagates interrupted_host
           [StdOut (LineText
              "Warning: Frontend 'dist' directory not found at /srv/app/dist. Serving API only.")]
           api_only_app 9000 KeyboardInterrupt);
    try reflexivity.
  intros e. discriminate.
Defined.

(** Loading app.py starts no server. *)
Lemma app_module_no_server (h : Host) :
  uvicorn_calls (run_startup app_module h).1 = [].
Proof.
  unfold run_startup. rewrite app_module_run. by repeat case_match.
Qed.

(** X13.  The script calls [uvicorn.run] at most once, and only as the
    main script; the call, if any, names the host of the environment's
    HOST (or 127.0.0.1) and the log level "info". *)
Theorem server_started_at_most_once (h : Host) :
  (is_main h = true ∨ uvicorn_calls (run_startup run_server h).1 = []) ∧
  length (uvicorn_calls (run_startup run_server h).1) ≤ 1 ∧
  Forall (λ call, call.1.1.2 = os_getenv (host_world h) "HOST" "127.0.0.1" ∧
                  call.2 = "info")
    (uvicorn_calls (run_startup run_server h).1).
Proof.
  pose proof (app_module_no_server h) as Hquiet.
  destruct (run_startup app_module h) as [tr0 [app|f]] eqn:Happ;
    simpl in Hquiet.
  2: { rewrite (run_server_import_fails h tr0 f Happ). simpl.
       rewrite Hquiet. simpl. repeat split; auto. }
  destruct ((run_startup PORT h).2) as [port|f] eqn:Hport.
  2: { rewrite (run_server_port_fails h tr0 app f Happ Hport). simpl.
       rewrite Hquiet. simpl. repeat split; auto. }
  rewrite (run_server_loaded h tr0 app port Happ Hport).
  destruct (is_main h).
  2: { simpl. rewrite Hquiet. simpl. repeat split; auto. }
  unfold HOST.
  destruct (uvicorn_run h app _ port "info") as [[e|c|]|]; simpl;
    unfold uvicorn_calls in *; rewrite omap_app, Hquiet; simpl;
    repeat split; auto.
Qed.


